(** * Ginkgo: the public declaration surface (ginkgo_dsl.go)

    A shallow embedding of the exported functions of package [ginkgo]:
    the node declarations ([Describe], [It], [Measure], the hooks and
    their F-, P- and X-prefixed variants), the failure primitives
    ([Fail], [GinkgoRecover]) and the entry points ([RunSpecs] and its
    two siblings).

    The functions of the file are thin: each one reads a little global
    state, computes the arguments of one method of [internal.Suite] and
    calls it.  The package-level variables therefore become one record
    ([State]), every function becomes a state transformer that may also
    panic ([M]), and the method calls received by [globalSuite] are kept,
    oldest first, as the suite's observable state. *)

From Stdlib Require Import ZArith Ascii Floats.SpecFloat.
From stdpp Require Import gmap strings list.

Local Open Scope Z_scope.

(* ===================================================================== *)
(** ** Machine integers and [float64] *)
(* ===================================================================== *)

Module Int64.

Definition min_int : Z := - 2 ^ 63.
Definition max_int : Z := 2 ^ 63 - 1.

Definition in_range (z : Z) : bool := (min_int <=? z) && (z <=? max_int).

(** Two's complement wrap-around of [int64] arithmetic. *)
Definition wrap (z : Z) : Z := (z + 2 ^ 63) mod 2 ^ 64 - 2 ^ 63.

Definition mul (a b : Z) : Z := wrap (a * b).

End Int64.

Module Float64.

(** IEEE 754 binary64: 53 bits of precision, infinities at exponent 1024. *)
Definition prec : Z := 53.
Definition emax : Z := 1024.

Definition float64 : Type := spec_float.

Definition mul (x y : float64) : float64 := SFmul prec emax x y.

(** [float64(n)] for an integer [n]: round to nearest, ties to even. *)
Definition of_int (n : Z) : float64 := binary_normalize prec emax n 0 false.

Definition is_zero (x : float64) : bool :=
  match x with S754_zero _ => true | _ => false end.

(** The integer part of a finite value, the fraction discarded
    (truncation towards zero); nothing for NaN and the infinities. *)
Definition trunc (x : float64) : option Z :=
  match x with
  | S754_zero _ => Some 0
  | S754_finite s m e => Some (cond_Zopp s (Z.shiftl (Z.pos m) e))
  | S754_infinity _ | S754_nan => None
  end.

(** The significand of a positive integer [q] of at most 53 bits, once it
    is shifted to fill the 53 bits. *)
Definition significand (q : Z) : positive := Z.to_pos (q * 2 ^ (52 - Z.log2 q)).

Section Conversion.

(** Go fixes the conversion of a floating-point value to an integer
    type only when the truncated value fits: otherwise the conversion
    succeeds and the result is implementation-dependent. *)
Variable unrepresentable : float64 -> Z.

Definition to_int64 (x : float64) : Z :=
  match trunc x with
  | Some z => if Int64.in_range z then z else unrepresentable x
  | None => unrepresentable x
  end.

End Conversion.

(** What the amd64 port produces when the value does not fit
    (CVTTSD2SQ's integer indefinite). *)
Definition amd64_unrepresentable (_ : float64) : Z := Int64.min_int.

End Float64.

Definition float64 : Type := Float64.float64.

(* ===================================================================== *)
(** ** Package [time] *)
(* ===================================================================== *)

(** [time.Duration] is an [int64] count of nanoseconds. *)
Definition time_Duration : Type := Z.

Definition time_Nanosecond : time_Duration := 1.
Definition time_Second : time_Duration := 1000000000 * time_Nanosecond.

(* ===================================================================== *)
(** ** Timeouts *)
(* ===================================================================== *)

(** [const defaultTimeout = 1] *)
Definition defaultTimeout : Z := 1.

Section ParseTimeout.

Variable unrepresentable : float64 -> Z.

(** [func parseTimeout(timeout ...float64) time.Duration] *)
Definition parseTimeout (timeout : list float64) : time_Duration :=
  match timeout with
  | [] => Int64.mul defaultTimeout time_Second
  | t0 :: _ =>
      Float64.to_int64 unrepresentable
        (Float64.mul t0 (Float64.of_int time_Second))
  end.

End ParseTimeout.

(* ===================================================================== *)
(** ** Types of the packages the file imports *)
(* ===================================================================== *)

(** [internaltypes.FlagType] *)
Inductive FlagType := FlagTypeNone | FlagTypeFocused | FlagTypePending.

#[global] Instance FlagType_eq_dec : EqDecision FlagType.
Proof. solve_decision. Defined.

(** [types.CodeLocation], built by [codelocation.New(skip)]: the frame
    [skip] levels above the function that calls [New].  The suite never
    interprets it. *)
Inductive CodeLocation := codelocation_New (skip : Z).

(** [config.DefaultReporterConfig]: the two fields this file reads. *)
Record DefaultReporterConfigType := {
  NoColor : bool;
  Verbose : bool;
}.

(** [stenographer.New(color)], [&http.Client{}], [remote.NewOutputInterceptor()] *)
Inductive Stenographer := stenographer_New (color : bool).
Inductive http_Client := http_Client_zero.
Inductive OutputInterceptor := remote_NewOutputInterceptor.

(** [type Reporter reporters.Reporter].  The two named interface types have
    the same method set, so a conversion between them keeps the value. *)
Inductive Reporter :=
  | Reporter_nil
  | reporters_NewDefaultReporter (config : DefaultReporterConfigType) (s : Stenographer)
  | remote_NewForwardingReporter (serverHost : string) (client : http_Client)
      (interceptor : OutputInterceptor)
  | CustomReporter (name : string).

(** Modelled from the spec: [internal.GinkgoWriter], the Output Buffer of
    section 4.7, whose code is not part of this file.  "Two modes: Verbose,
    every write passes through immediately to the real sink.  Buffered,
    writes accumulate in memory". *)
Record internal_GinkgoWriter := {
  directToStdout : bool;
  buffer : list Byte.byte;
  outWriter : list Byte.byte;   (* what has reached the real sink *)
}.

(** Modelled from the spec: the setter of the mode, [SetDirectToStdout]. *)
Definition SetDirectToStdout (directToStdout : bool) (w : internal_GinkgoWriter)
  : internal_GinkgoWriter :=
  {| directToStdout := directToStdout; buffer := buffer w; outWriter := outWriter w |}.

(** Modelled from the spec: [Write], in either mode (section 4.7). *)
Definition GinkgoWriter_Write (p : list Byte.byte) (w : internal_GinkgoWriter)
  : internal_GinkgoWriter :=
  if directToStdout w
  then {| directToStdout := directToStdout w; buffer := buffer w;
          outWriter := outWriter w ++ p |}
  else {| directToStdout := directToStdout w; buffer := buffer w ++ p;
          outWriter := outWriter w |}.

(** [var GinkgoWriter io.Writer]: [init] stores an [*internal.GinkgoWriter]
    there, but the variable is exported and typed by the interface. *)
Inductive io_Writer :=
  | Writer_internal (w : internal_GinkgoWriter)
  | Writer_other (name : string).

(** [const GINKGO_PANIC] *)
Definition GINKGO_PANIC : string := "
Your test failed.
Ginkgo panics to prevent subsequent assertions from running.
Normally Ginkgo rescues this panic so you shouldn't see it.

But, if you make an assertion in a goroutine, Ginkgo can't capture the panic.
To circumvent this, you should call

	defer GinkgoRecover()

at the top of the goroutine that caused this panic.
".

Definition newline : string := String (Ascii.ascii_of_nat 10) EmptyString.

(** [os.Getenv]: the value of the variable, empty when it is not set. *)
Definition os_Getenv (environ : gmap string string) (key : string) : string :=
  default EmptyString (environ !! key).

(* ===================================================================== *)
(** ** The package: its state and its functions *)
(* ===================================================================== *)

Section Ginkgo.

(** The program state on which a node body acts once the runner calls it.
    Nothing in this file runs a body, so it stays abstract. *)
Variable W : Type.

(** [config.GinkgoConfig] is only passed on. *)
Variable GinkgoConfigType : Type.

(** The value [float64 -> int64] yields when the result does not fit. *)
Variable unrepresentable : float64 -> Z.

(** [type Done chan<- interface{}]: a channel, by its handle. *)
Definition Done : Type := nat.

(** What an [interface{}] argument, or the value of a panic, may hold. *)
Inductive GoValue :=
  | VNil
  | VBool (b : bool)
  | VInt (n : Z)
  | VFloat64 (x : float64)
  | VString (s : string)
  | VError (msg : string)
  | VFunc (f : W -> W)                  (* func() *)
  | VDoneFunc (f : Done -> W -> W).     (* func(Done) *)

(** [fmt.Sprintf] with the verb [%#v]: Go syntax of the value. *)
Variable fmt_GoSyntax : GoValue -> string.

(** [type GinkgoTestingT interface { Fail() }] *)
Record GinkgoTestingT := { T_Fail : W -> W }.

(** [type Benchmarker interface { Time(...); RecordValue(...) }] *)
Record Benchmarker := {
  Time : string -> (W -> W) -> list GoValue -> W -> time_Duration * W;
  RecordValue : string -> float64 -> list GoValue -> W -> W;
}.

(** The methods of [*internal.Suite] this file calls, with their
    arguments.  [SuiteRun] receives the writer by pointer: the call is
    kept with the writer as it is at that moment. *)
Inductive SuiteCall :=
  | PushContainerNode (text : string) (body : W -> W) (flag : FlagType)
      (codeLocation : CodeLocation)
  | PushItNode (text : string) (body : GoValue) (flag : FlagType)
      (codeLocation : CodeLocation) (timeout : time_Duration)
  | PushMeasureNode (text : string) (body : Benchmarker -> W -> W) (flag : FlagType)
      (codeLocation : CodeLocation) (samples : Z)
  | PushBeforeEachNode (body : GoValue) (codeLocation : CodeLocation)
      (timeout : time_Duration)
  | PushJustBeforeEachNode (body : GoValue) (codeLocation : CodeLocation)
      (timeout : time_Duration)
  | PushAfterEachNode (body : GoValue) (codeLocation : CodeLocation)
      (timeout : time_Duration)
  | SuiteFail (message : string) (callerSkip : Z)
  | SuiteRun (t : GinkgoTestingT) (description : string) (reporters : list Reporter)
      (writer : internal_GinkgoWriter) (config : GinkgoConfigType).

(** The verdict [Suite.Run] returns, given all the suite has received. *)
Variable suite_Run_passed : list SuiteCall -> bool.

(** The package-level variables, the process environment, and the panic
    in flight on the current goroutine while its deferred calls run. *)
Record State := {
  globalSuite : list SuiteCall;
  GinkgoWriter : io_Writer;
  DefaultReporterConfig : DefaultReporterConfigType;
  GinkgoConfig : GinkgoConfigType;
  environ : gmap string string;
  panicking : option GoValue;
}.

Definition set_globalSuite (calls : list SuiteCall) (st : State) : State :=
  {| globalSuite := calls; GinkgoWriter := GinkgoWriter st;
     DefaultReporterConfig := DefaultReporterConfig st;
     GinkgoConfig := GinkgoConfig st; environ := environ st;
     panicking := panicking st |}.

Definition set_GinkgoWriter (w : io_Writer) (st : State) : State :=
  {| globalSuite := globalSuite st; GinkgoWriter := w;
     DefaultReporterConfig := DefaultReporterConfig st;
     GinkgoConfig := GinkgoConfig st; environ := environ st;
     panicking := panicking st |}.

Definition set_panicking (p : option GoValue) (st : State) : State :=
  {| globalSuite := globalSuite st; GinkgoWriter := GinkgoWriter st;
     DefaultReporterConfig := DefaultReporterConfig st;
     GinkgoConfig := GinkgoConfig st; environ := environ st;
     panicking := p |}.

(** [func init()]: the configuration comes from the command line flags
    and the environment from the process; the suite has received nothing;
    the writer is fresh, in the buffered mode the spec calls the default
    (section 4.7). *)
Definition init (reporterConfig : DefaultReporterConfigType)
    (ginkgoConfig : GinkgoConfigType) (env : gmap string string) : State :=
  {| globalSuite := [];
     GinkgoWriter :=
       Writer_internal {| directToStdout := false; buffer := []; outWriter := [] |};
     DefaultReporterConfig := reporterConfig;
     GinkgoConfig := ginkgoConfig;
     environ := env;
     panicking := None |}.

(** *** Computations: state passing, with panics *)

Inductive Outcome (A : Type) :=
  | Returned (a : A)
  | Panicked (v : GoValue).
Arguments Returned {A} a.
Arguments Panicked {A} v.

Definition M (A : Type) : Type := State -> Outcome A * State.

Definition ret {A} (a : A) : M A := fun st => (Returned a, st).

Definition bind {A B} (m : M A) (k : A -> M B) : M B :=
  fun st =>
    match m st with
    | (Returned a, st') => k a st'
    | (Panicked v, st') => (Panicked v, st')
    end.

Definition panic {A} (v : GoValue) : M A := fun st => (Panicked v, st).

Definition gets {A} (f : State -> A) : M A := fun st => (Returned (f st), st).

Definition modify (f : State -> State) : M unit := fun st => (Returned tt, f st).

Notation "'do' x <- m ;; k" := (bind m (fun x => k))
  (at level 10, x name, m at level 99, k at level 200).

(** A method call on [globalSuite]. *)
Definition suite (c : SuiteCall) : M unit :=
  modify (fun st => set_globalSuite (globalSuite st ++ [c]) st).

(** [recover()], called by a deferred function: the value of the panic
    in flight, which it stops; nil when there is none. *)
Definition recover : M GoValue :=
  fun st => (Returned (default VNil (panicking st)), set_panicking None st).

(** [defer d()] in a function whose remaining body is [body]: [d] runs
    when [body] returns or panics, and a panic it does not recover goes
    on to the caller. *)
Definition defer (d : M unit) (body : M unit) : M unit :=
  fun st =>
    match body st with
    | (Returned tt, st1) => d st1
    | (Panicked v, st1) =>
        match d (set_panicking (Some v) st1) with
        | (Returned tt, st2) =>
            match panicking st2 with
            | Some v' => (Panicked v', set_panicking None st2)
            | None => (Returned tt, st2)
            end
        | (Panicked v', st2) => (Panicked v', set_panicking None st2)
        end
    end.

(** *** Slices *)

(** [make([]T, n)]: [n] zero values. *)
Definition make {A} (zero : A) (n : nat) : list A := replicate n zero.

(** [s[i] = x]; an index out of range panics. *)
Definition slice_assign {A} (s : list A) (i : nat) (x : A) : option (list A) :=
  if decide (i < length s)%nat then Some (<[i := x]> s) else None.

(** [for i, x := range src { dst[i] = x }], entered at index [i]. *)
Fixpoint range_assign {A} (i : nat) (src dst : list A) : option (list A) :=
  match src with
  | [] => Some dst
  | x :: src' =>
      match slice_assign dst i x with
      | Some dst' => range_assign (S i) src' dst'
      | None => None
      end
  end.

Definition index_out_of_range : GoValue :=
  VError "runtime error: index out of range".

Definition interface_conversion : GoValue :=
  VError "interface conversion: io.Writer is not *internal.GinkgoWriter".

(** *** Running the suite *)

(** [func buildDefaultReporter() Reporter] *)
Definition buildDefaultReporter : M Reporter :=
  do remoteReportingServer <-
    gets (fun st => os_Getenv (environ st) "GINKGO_REMOTE_REPORTING_SERVER") ;;
  if decide (remoteReportingServer = EmptyString) then
    do config <- gets DefaultReporterConfig ;;
    let stenographer := stenographer_New (negb (NoColor config)) in
    ret (reporters_NewDefaultReporter config stenographer)
  else
    ret (remote_NewForwardingReporter remoteReportingServer http_Client_zero
           remote_NewOutputInterceptor).

(** [func RunSpecsWithCustomReporters(t, description, specReporters) bool] *)
Definition RunSpecsWithCustomReporters (t : GinkgoTestingT) (description : string)
    (specReporters : list Reporter) : M bool :=
  do w <- gets GinkgoWriter ;;
  match w with
  | Writer_other _ => panic interface_conversion
  | Writer_internal writer =>
      do verbose <- gets (fun st => Verbose (DefaultReporterConfig st)) ;;
      let writer := SetDirectToStdout verbose writer in
      do _ <- modify (set_GinkgoWriter (Writer_internal writer)) ;;
      let reporters := make Reporter_nil (length specReporters) in
      match range_assign 0 specReporters reporters with
      | None => panic index_out_of_range
      | Some reporters =>
          do config <- gets GinkgoConfig ;;
          do _ <- suite (SuiteRun t description reporters writer config) ;;
          gets (fun st => suite_Run_passed (globalSuite st))
      end
  end.

(** [func RunSpecs(t GinkgoTestingT, description string) bool] *)
Definition RunSpecs (t : GinkgoTestingT) (description : string) : M bool :=
  do r <- buildDefaultReporter ;;
  let specReporters := [r] in
  RunSpecsWithCustomReporters t description specReporters.

(** [func RunSpecsWithDefaultAndCustomReporters(t, description, specReporters) bool] *)
Definition RunSpecsWithDefaultAndCustomReporters (t : GinkgoTestingT)
    (description : string) (specReporters : list Reporter) : M bool :=
  do r <- buildDefaultReporter ;;
  let specReporters := [r] ++ specReporters in
  RunSpecsWithCustomReporters t description specReporters.

(** *** Failing *)

(** [func Fail(message string, callerSkip ...int)] *)
Definition Fail (message : string) (callerSkip : list Z) : M unit :=
  let skip := match callerSkip with [] => 0 | skip0 :: _ => skip0 end in
  do _ <- suite (SuiteFail message skip) ;;
  panic (VString GINKGO_PANIC).

(** [func GinkgoRecover()] *)
Definition GinkgoRecover : M unit :=
  do e <- recover ;;
  match e with
  | VNil => ret tt
  | _ => suite (SuiteFail ("Goroutine Panicked" +:+ newline +:+ fmt_GoSyntax e) 1)
  end.

(** *** Containers *)

Definition Describe (text : string) (body : W -> W) : M bool :=
  do _ <- suite (PushContainerNode text body FlagTypeNone (codelocation_New 1)) ;;
  ret true.

Definition FDescribe (text : string) (body : W -> W) : M bool :=
  do _ <- suite (PushContainerNode text body FlagTypeFocused (codelocation_New 1)) ;;
  ret true.

Definition PDescribe (text : string) (body : W -> W) : M bool :=
  do _ <- suite (PushContainerNode text body FlagTypePending (codelocation_New 1)) ;;
  ret true.

Definition XDescribe (text : string) (body : W -> W) : M bool :=
  do _ <- suite (PushContainerNode text body FlagTypePending (codelocation_New 1)) ;;
  ret true.

Definition Context (text : string) (body : W -> W) : M bool :=
  do _ <- suite (PushContainerNode text body FlagTypeNone (codelocation_New 1)) ;;
  ret true.

Definition FContext (text : string) (body : W -> W) : M bool :=
  do _ <- suite (PushContainerNode text body FlagTypeFocused (codelocation_New 1)) ;;
  ret true.

Definition PContext (text : string) (body : W -> W) : M bool :=
  do _ <- suite (PushContainerNode text body FlagTypePending (codelocation_New 1)) ;;
  ret true.

Definition XContext (text : string) (body : W -> W) : M bool :=
  do _ <- suite (PushContainerNode text body FlagTypePending (codelocation_New 1)) ;;
  ret true.

(** *** Leaves *)

Definition It (text : string) (body : GoValue) (timeout : list float64) : M bool :=
  do _ <- suite (PushItNode text body FlagTypeNone (codelocation_New 1)
                (parseTimeout unrepresentable timeout)) ;;
  ret true.

Definition FIt (text : string) (body : GoValue) (timeout : list float64) : M bool :=
  do _ <- suite (PushItNode text body FlagTypeFocused (codelocation_New 1)
                (parseTimeout unrepresentable timeout)) ;;
  ret true.

(** The body [PIt] and [XIt] hand over: [func() {}]. *)
Definition empty_func : W -> W := fun w => w.

Definition PIt (text : string) (_ : list GoValue) : M bool :=
  do _ <- suite (PushItNode text (VFunc empty_func) FlagTypePending (codelocation_New 1) 0) ;;
  ret true.

Definition XIt (text : string) (_ : list GoValue) : M bool :=
  do _ <- suite (PushItNode text (VFunc empty_func) FlagTypePending (codelocation_New 1) 0) ;;
  ret true.

Definition Measure (text : string) (body : Benchmarker -> W -> W) (samples : Z) : M bool :=
  do _ <- suite (PushMeasureNode text body FlagTypeNone (codelocation_New 1) samples) ;;
  ret true.

Definition FMeasure (text : string) (body : Benchmarker -> W -> W) (samples : Z) : M bool :=
  do _ <- suite (PushMeasureNode text body FlagTypeFocused (codelocation_New 1) samples) ;;
  ret true.

(** The body [PMeasure] and [XMeasure] hand over: [func(b Benchmarker) {}]. *)
Definition empty_measure : Benchmarker -> W -> W := fun b w => w.

Definition PMeasure (text : string) (_ : list GoValue) : M bool :=
  do _ <- suite (PushMeasureNode text empty_measure FlagTypePending (codelocation_New 1) 0) ;;
  ret true.

Definition XMeasure (text : string) (_ : list GoValue) : M bool :=
  do _ <- suite (PushMeasureNode text empty_measure FlagTypePending (codelocation_New 1) 0) ;;
  ret true.

(** *** Hooks *)

Definition BeforeEach (body : GoValue) (timeout : list float64) : M bool :=
  do _ <- suite (PushBeforeEachNode body (codelocation_New 1)
                (parseTimeout unrepresentable timeout)) ;;
  ret true.

Definition JustBeforeEach (body : GoValue) (timeout : list float64) : M bool :=
  do _ <- suite (PushJustBeforeEachNode body (codelocation_New 1)
                (parseTimeout unrepresentable timeout)) ;;
  ret true.

Definition AfterEach (body : GoValue) (timeout : list float64) : M bool :=
  do _ <- suite (PushAfterEachNode body (codelocation_New 1)
                (parseTimeout unrepresentable timeout)) ;;
  ret true.

(** *** The declaration surface as a whole *)

(** A call of one of the declaration functions, with its arguments. *)
Inductive Declaration :=
  | call_Describe (text : string) (body : W -> W)
  | call_FDescribe (text : string) (body : W -> W)
  | call_PDescribe (text : string) (body : W -> W)
  | call_XDescribe (text : string) (body : W -> W)
  | call_Context (text : string) (body : W -> W)
  | call_FContext (text : string) (body : W -> W)
  | call_PContext (text : string) (body : W -> W)
  | call_XContext (text : string) (body : W -> W)
  | call_It (text : string) (body : GoValue) (timeout : list float64)
  | call_FIt (text : string) (body : GoValue) (timeout : list float64)
  | call_PIt (text : string) (ignored : list GoValue)
  | call_XIt (text : string) (ignored : list GoValue)
  | call_Measure (text : string) (body : Benchmarker -> W -> W) (samples : Z)
  | call_FMeasure (text : string) (body : Benchmarker -> W -> W) (samples : Z)
  | call_PMeasure (text : string) (ignored : list GoValue)
  | call_XMeasure (text : string) (ignored : list GoValue)
  | call_BeforeEach (body : GoValue) (timeout : list float64)
  | call_JustBeforeEach (body : GoValue) (timeout : list float64)
  | call_AfterEach (body : GoValue) (timeout : list float64).

Definition declare (d : Declaration) : M bool :=
  match d with
  | call_Describe text body => Describe text body
  | call_FDescribe text body => FDescribe text body
  | call_PDescribe text body => PDescribe text body
  | call_XDescribe text body => XDescribe text body
  | call_Context text body => Context text body
  | call_FContext text body => FContext text body
  | call_PContext text body => PContext text body
  | call_XContext text body => XContext text body
  | call_It text body timeout => It text body timeout
  | call_FIt text body timeout => FIt text body timeout
  | call_PIt text ignored => PIt text ignored
  | call_XIt text ignored => XIt text ignored
  | call_Measure text body samples => Measure text body samples
  | call_FMeasure text body samples => FMeasure text body samples
  | call_PMeasure text ignored => PMeasure text ignored
  | call_XMeasure text ignored => XMeasure text ignored
  | call_BeforeEach body timeout => BeforeEach body timeout
  | call_JustBeforeEach body timeout => JustBeforeEach body timeout
  | call_AfterEach body timeout => AfterEach body timeout
  end.

(** The name of the function called. *)
Definition name (d : Declaration) : string :=
  match d with
  | call_Describe _ _ => "Describe"
  | call_FDescribe _ _ => "FDescribe"
  | call_PDescribe _ _ => "PDescribe"
  | call_XDescribe _ _ => "XDescribe"
  | call_Context _ _ => "Context"
  | call_FContext _ _ => "FContext"
  | call_PContext _ _ => "PContext"
  | call_XContext _ _ => "XContext"
  | call_It _ _ _ => "It"
  | call_FIt _ _ _ => "FIt"
  | call_PIt _ _ => "PIt"
  | call_XIt _ _ => "XIt"
  | call_Measure _ _ _ => "Measure"
  | call_FMeasure _ _ _ => "FMeasure"
  | call_PMeasure _ _ => "PMeasure"
  | call_XMeasure _ _ => "XMeasure"
  | call_BeforeEach _ _ => "BeforeEach"
  | call_JustBeforeEach _ _ => "JustBeforeEach"
  | call_AfterEach _ _ => "AfterEach"
  end.

(** What a call hands to the suite: the flag and the timeout of a node. *)
Definition call_flag (c : SuiteCall) : option FlagType :=
  match c with
  | PushContainerNode _ _ flag _ => Some flag
  | PushItNode _ _ flag _ _ => Some flag
  | PushMeasureNode _ _ flag _ _ => Some flag
  | _ => None
  end.

Definition call_timeout (c : SuiteCall) : option time_Duration :=
  match c with
  | PushItNode _ _ _ _ timeout => Some timeout
  | PushBeforeEachNode _ _ timeout => Some timeout
  | PushJustBeforeEachNode _ _ timeout => Some timeout
  | PushAfterEachNode _ _ timeout => Some timeout
  | _ => None
  end.

(** The flag a declaration carries according to its name: none for the
    four plain forms, Focused behind an F, Pending behind a P or an X.
    The hooks have no flagged forms. *)
Definition plain_forms : list string := ["Describe"; "Context"; "It"; "Measure"].

Definition flag_of_name (n : string) : option FlagType :=
  if decide (n ∈ plain_forms) then Some FlagTypeNone
  else match n with
       | String "F"%char plain =>
           if decide (plain ∈ plain_forms) then Some FlagTypeFocused else None
       | String "P"%char plain | String "X"%char plain =>
           if decide (plain ∈ plain_forms) then Some FlagTypePending else None
       | _ => None
       end.

(** [m] makes the suite receive the one call [c], and nothing else of
    the state changes. *)
Definition calls_suite {A} (m : M A) (c : SuiteCall) : Prop :=
  forall st, snd (m st) = set_globalSuite (globalSuite st ++ [c]) st.

(** The duration [parseTimeout] computes from a supplied value. *)
Definition seconds (t : float64) : time_Duration :=
  Float64.to_int64 unrepresentable (Float64.mul t (Float64.of_int time_Second)).

(** Successive writes to the shared writer. *)
Definition writes (ps : list (list Byte.byte)) (w : internal_GinkgoWriter)
  : internal_GinkgoWriter :=
  foldl (fun w p => GinkgoWriter_Write p w) w ps.

(** The failure message [GinkgoRecover] reports for a panic value. *)
Definition goroutine_panicked (e : GoValue) : string :=
  "Goroutine Panicked" +:+ newline +:+ fmt_GoSyntax e.

(** Whether a reporter is the remote forwarding one. *)
Definition is_forwarding (r : Reporter) : bool :=
  match r with remote_NewForwardingReporter _ _ _ => true | _ => false end.

(** [m], started in [st], runs the suite once, handing it the shared
    writer in the condition [writer], which is also how it leaves it. *)
Definition runs_suite_with (m : M bool) (st : State) (writer : internal_GinkgoWriter)
  : Prop :=
  GinkgoWriter (snd (m st)) = Writer_internal writer
  /\ exists t description reporters,
      globalSuite (snd (m st)) =
        globalSuite st ++ [SuiteRun t description reporters writer (GinkgoConfig st)].

(** [m] hands the suite one node, and its timeout is [d]. *)
Definition attaches_timeout (m : M bool) (d : time_Duration) : Prop :=
  exists c, calls_suite m c /\ call_timeout c = Some d.

(** [GinkgoWriter] holds the package's own writer. *)
Definition writer_is_internal (st : State) : Prop :=
  match GinkgoWriter st with Writer_internal _ => True | Writer_other _ => False end.

(** *** Programs over the package *)

Definition set_environ (env : gmap string string) (st : State) : State :=
  {| globalSuite := globalSuite st; GinkgoWriter := GinkgoWriter st;
     DefaultReporterConfig := DefaultReporterConfig st;
     GinkgoConfig := GinkgoConfig st; environ := env;
     panicking := panicking st |}.

(** One call of an exported function, as a test program makes it.
    [do_goroutine] is the goroutine the documentation of [GinkgoRecover]
    asks for: [defer GinkgoRecover()] first, then a failing assertion. *)
Inductive Call :=
  | do_declare (d : Declaration)
  | do_Fail (message : string) (callerSkip : list Z)
  | do_GinkgoRecover
  | do_goroutine (message : string) (callerSkip : list Z)
  | do_RunSpecs (t : GinkgoTestingT) (description : string)
  | do_RunSpecsWithDefaultAndCustomReporters (t : GinkgoTestingT)
      (description : string) (specReporters : list Reporter)
  | do_RunSpecsWithCustomReporters (t : GinkgoTestingT)
      (description : string) (specReporters : list Reporter).

(** The state a call leaves, whether it returns or panics. *)
Definition exec (c : Call) (st : State) : State :=
  match c with
  | do_declare d => snd (declare d st)
  | do_Fail message callerSkip => snd (Fail message callerSkip st)
  | do_GinkgoRecover => snd (GinkgoRecover st)
  | do_goroutine message callerSkip =>
      snd (defer GinkgoRecover (Fail message callerSkip) st)
  | do_RunSpecs t description => snd (RunSpecs t description st)
  | do_RunSpecsWithDefaultAndCustomReporters t description specReporters =>
      snd (RunSpecsWithDefaultAndCustomReporters t description specReporters st)
  | do_RunSpecsWithCustomReporters t description specReporters =>
      snd (RunSpecsWithCustomReporters t description specReporters st)
  end.

(** The calls of a program, one after the other. *)
Definition run (p : list Call) (st : State) : State :=
  foldl (fun st c => exec c st) st p.

Definition is_SuiteRun (c : SuiteCall) : bool :=
  match c with SuiteRun _ _ _ _ _ => true | _ => false end.

(** What the suite can rely on in a call it receives from a program that
    started with the configuration [reporterConfig], [ginkgoConfig]. *)
Definition call_ok (reporterConfig : DefaultReporterConfigType)
    (ginkgoConfig : GinkgoConfigType) (c : SuiteCall) : Prop :=
  match c with
  | PushContainerNode _ _ _ codeLocation => codeLocation = codelocation_New 1
  | PushItNode _ body flag codeLocation timeout =>
      codeLocation = codelocation_New 1
      /\ (flag = FlagTypePending -> body = VFunc empty_func /\ timeout = 0)
  | PushMeasureNode _ body flag codeLocation samples =>
      codeLocation = codelocation_New 1
      /\ (flag = FlagTypePending -> body = empty_measure /\ samples = 0)
  | PushBeforeEachNode _ codeLocation _ => codeLocation = codelocation_New 1
  | PushJustBeforeEachNode _ codeLocation _ => codeLocation = codelocation_New 1
  | PushAfterEachNode _ codeLocation _ => codeLocation = codelocation_New 1
  | SuiteFail _ _ => True
  | SuiteRun _ _ _ writer config =>
      config = ginkgoConfig /\ directToStdout writer = Verbose reporterConfig
  end.

(** What holds of the state at every point of a program that started in
    [init reporterConfig ginkgoConfig env]. *)
Definition invariant (reporterConfig : DefaultReporterConfigType)
    (ginkgoConfig : GinkgoConfigType) (env : gmap string string) (st : State) : Prop :=
  DefaultReporterConfig st = reporterConfig
  /\ GinkgoConfig st = ginkgoConfig
  /\ environ st = env
  /\ panicking st = None
  /\ Forall (call_ok reporterConfig ginkgoConfig) (globalSuite st)
  /\ GinkgoWriter st =
       Writer_internal
         {| directToStdout :=
              if existsb is_SuiteRun (globalSuite st)
              then Verbose reporterConfig else false;
            buffer := []; outWriter := [] |}.

(** The default reporter for a configuration and an environment: the
    forwarding one when GINKGO_REMOTE_REPORTING_SERVER names a server. *)
Definition default_reporter_for (config : DefaultReporterConfigType)
    (env : gmap string string) : Reporter :=
  let server := os_Getenv env "GINKGO_REMOTE_REPORTING_SERVER" in
  if decide (server = EmptyString)
  then reporters_NewDefaultReporter config (stenographer_New (negb (NoColor config)))
  else remote_NewForwardingReporter server http_Client_zero remote_NewOutputInterceptor.


Definition is_entry_point (c : Call) : bool :=
  match c with
  | do_RunSpecs _ _
  | do_RunSpecsWithDefaultAndCustomReporters _ _ _
  | do_RunSpecsWithCustomReporters _ _ _ => true
  | _ => false
  end.

(** How many times the suite has been run. *)
Definition runs_of (calls : list SuiteCall) : nat :=
  length (List.filter is_SuiteRun calls).

(** *** Declarations over a suite whose methods may not return *)







(* =================================================================== *)
(** ** Properties *)
(* =================================================================== *)



(** C4: every flagged declaration hands the suite exactly one node, whose
    flag is fixed by the name of the function: none for the plain forms,
    Focused for the F forms, Pending for the P and the X forms (the hooks
    carry no flag); a P form and its X form do the same thing. *)
Theorem declaration_flag_by_name :
  (forall d, exists c, calls_suite (declare d) c /\ call_flag c = flag_of_name (name d))
  /\ (forall text body, PDescribe text body = XDescribe text body)
  /\ (forall text body, PContext text body = XContext text body)
  /\ (forall text ignored, PIt text ignored = XIt text ignored)
  /\ (forall text ignored, PMeasure text ignored = XMeasure text ignored).
Proof.
  split; [|by repeat split].
  intros d; destruct d; (eexists; split; [intros st; reflexivity|reflexivity]).
Qed.

(** C5: a leaf declared pending never hands the supplied body to the
    suite.  [PIt] and [XIt] push an empty function with a zero timeout,
    [PMeasure] and [XMeasure] an empty function with zero samples; what
    the suite receives is the same for every choice of the ignored
    arguments, and running the pushed body changes nothing. *)
Theorem pending_leaf_discards_body (text : string) (ignored : list GoValue) :
  calls_suite (PIt text ignored)
    (PushItNode text (VFunc empty_func) FlagTypePending (codelocation_New 1) 0)
  /\ calls_suite (XIt text ignored)
    (PushItNode text (VFunc empty_func) FlagTypePending (codelocation_New 1) 0)
  /\ calls_suite (PMeasure text ignored)
    (PushMeasureNode text empty_measure FlagTypePending (codelocation_New 1) 0)
  /\ calls_suite (XMeasure text ignored)
    (PushMeasureNode text empty_measure FlagTypePending (codelocation_New 1) 0)
  /\ (forall other, PIt text ignored = PIt text other
                    /\ XIt text ignored = XIt text other
                    /\ PMeasure text ignored = PMeasure text other
                    /\ XMeasure text ignored = XMeasure text other)
  /\ (forall w, empty_func w = w)
  /\ (forall b w, empty_measure b w = w).
Proof.
  repeat split.
Qed.

(** C2: [Fail] hands the message and the skip offset (the first
    [callerSkip], 0 when there is none) to the suite and then panics with
    [GINKGO_PANIC]; it returns normally on no input. *)
Theorem Fail_records_then_panics (message : string) (callerSkip : list Z)
    (st : State) :
  Fail message callerSkip st =
    (Panicked (VString GINKGO_PANIC),
     set_globalSuite
       (globalSuite st ++ [SuiteFail message (default 0 (head callerSkip))]) st)
  /\ (forall (u : unit) st', Fail message callerSkip st <> (Returned u, st')).
Proof.
  assert (Fail message callerSkip st =
    (Panicked (VString GINKGO_PANIC),
     set_globalSuite
       (globalSuite st ++ [SuiteFail message (default 0 (head callerSkip))]) st)) as E
    by (destruct callerSkip; reflexivity).
  split; [exact E|]. intros u st'. rewrite E. discriminate.
Qed.

Lemma set_panicking_same (st : State) :
  panicking st = None -> set_panicking None st = st.
Proof. destruct st; simpl; intros ->; reflexivity. Qed.

(** C3: with a panic in flight whose value is not nil, [GinkgoRecover]
    stops the panic, hands one failure to the suite and returns; with no
    panic in flight it returns and the state is what it was. *)
Theorem GinkgoRecover_converts_panic (st : State) :
  (forall e, panicking st = Some e -> e <> VNil ->
     GinkgoRecover st =
       (Returned tt,
        set_globalSuite (globalSuite st ++ [SuiteFail (goroutine_panicked e) 1])
          (set_panicking None st)))
  /\ (panicking st = None -> GinkgoRecover st = (Returned tt, st)).
Proof.
  split.
  - intros e He Hnil. unfold GinkgoRecover, bind, recover. rewrite He. simpl.
    destruct e; try reflexivity. contradiction.
  - intros Hnone. unfold GinkgoRecover, bind, recover. rewrite Hnone. simpl.
    unfold ret. by rewrite set_panicking_same.
Qed.

(** A goroutine that starts with [defer GinkgoRecover()] and then fails
    ends normally, both failures with the suite. *)
Lemma deferred_GinkgoRecover_rescues_Fail (message : string) (callerSkip : list Z)
    (st : State) :
  panicking st = None ->
  defer GinkgoRecover (Fail message callerSkip) st =
    (Returned tt,
     set_globalSuite
       (globalSuite st ++
          [SuiteFail message (default 0 (head callerSkip));
           SuiteFail (goroutine_panicked (VString GINKGO_PANIC)) 1]) st).
Proof.
  intros Hnone. unfold defer.
  destruct (Fail_records_then_panics message callerSkip st) as [-> _].
  destruct st; simpl in *; subst. unfold set_globalSuite; simpl.
  by rewrite <- app_assoc.
Qed.

(** C6: [buildDefaultReporter] returns the forwarding reporter exactly
    when GINKGO_REMOTE_REPORTING_SERVER is not empty (an unset variable
    reads as empty), and otherwise the default reporter on a stenographer;
    the state is left as it was. *)
Theorem buildDefaultReporter_by_environment (st : State) :
  let server := os_Getenv (environ st) "GINKGO_REMOTE_REPORTING_SERVER" in
  exists r,
    buildDefaultReporter st = (Returned r, st)
    /\ (is_forwarding r = true <-> server <> EmptyString)
    /\ (server <> EmptyString ->
        r = remote_NewForwardingReporter server http_Client_zero
              remote_NewOutputInterceptor)
    /\ (server = EmptyString ->
        r = reporters_NewDefaultReporter (DefaultReporterConfig st)
              (stenographer_New (negb (NoColor (DefaultReporterConfig st))))).
Proof.
  intros server. unfold buildDefaultReporter, bind, gets. fold server.
  destruct (decide (server = EmptyString)) as [E|N].
  - eexists; split; [reflexivity|]. simpl. repeat split; try done.
  - eexists; split; [reflexivity|]. simpl. repeat split; try done.
Qed.

(** The copying loop of [RunSpecsWithCustomReporters] never leaves the
    slice it fills, and fills it with the source, in order. *)
Lemma range_assign_fills {A} (zero : A) (src pre : list A) :
  range_assign (length pre) src (pre ++ make zero (length src)) = Some (pre ++ src).
Proof.
  revert pre. induction src as [|x src IH]; intros pre; simpl.
  - reflexivity.
  - unfold slice_assign. rewrite decide_True by (rewrite length_app; simpl; lia).
    rewrite insert_app_r_alt by lia. rewrite Nat.sub_diag. simpl.
    specialize (IH (pre ++ [x])). rewrite length_app in IH. simpl in IH.
    rewrite Nat.add_1_r in IH. rewrite <- !app_assoc in IH. exact IH.
Qed.

Lemma range_assign_copies {A} (zero : A) (src : list A) :
  range_assign 0 src (make zero (length src)) = Some src.
Proof. exact (range_assign_fills zero src []). Qed.

(** What [RunSpecsWithCustomReporters] does when [GinkgoWriter] still holds
    the writer [init] put there. *)
Lemma RunSpecsWithCustomReporters_runs t description specReporters st writer :
  GinkgoWriter st = Writer_internal writer ->
  RunSpecsWithCustomReporters t description specReporters st =
    let writer' := SetDirectToStdout (Verbose (DefaultReporterConfig st)) writer in
    let calls := globalSuite st ++
                 [SuiteRun t description specReporters writer' (GinkgoConfig st)] in
    (Returned (suite_Run_passed calls),
     set_globalSuite calls (set_GinkgoWriter (Writer_internal writer') st)).
Proof.
  intros Hw. unfold RunSpecsWithCustomReporters, bind, gets. rewrite Hw. simpl.
  rewrite range_assign_copies. reflexivity.
Qed.

(** With any other writer in [GinkgoWriter] the type assertion panics and
    the suite is not run. *)
Lemma RunSpecsWithCustomReporters_other_writer t description specReporters st w :
  GinkgoWriter st = Writer_other w ->
  RunSpecsWithCustomReporters t description specReporters st =
    (Panicked interface_conversion, st).
Proof.
  intros Hw. unfold RunSpecsWithCustomReporters, bind, gets. rewrite Hw. reflexivity.
Qed.

Lemma buildDefaultReporter_returns (st : State) :
  exists r, buildDefaultReporter st = (Returned r, st).
Proof.
  unfold buildDefaultReporter, bind, gets.
  destruct (decide (_ = EmptyString)); eexists; reflexivity.
Qed.

(** [RunSpecs] and [RunSpecsWithDefaultAndCustomReporters] delegate. *)
Lemma RunSpecs_delegates t description st r :
  buildDefaultReporter st = (Returned r, st) ->
  RunSpecs t description st = RunSpecsWithCustomReporters t description [r] st.
Proof. intros Hr. unfold RunSpecs, bind. by rewrite Hr. Qed.

Lemma RunSpecsWithDefaultAndCustomReporters_delegates t description custom st r :
  buildDefaultReporter st = (Returned r, st) ->
  RunSpecsWithDefaultAndCustomReporters t description custom st =
    RunSpecsWithCustomReporters t description (r :: custom) st.
Proof. intros Hr. unfold RunSpecsWithDefaultAndCustomReporters, bind. by rewrite Hr. Qed.

(** Nothing in this file puts another kind of writer in [GinkgoWriter]:
    once [init] has run, the assertion in [RunSpecsWithCustomReporters]
    holds however the package's functions are called. *)
Lemma GinkgoWriter_after_init reporterConfig ginkgoConfig env :
  writer_is_internal (init reporterConfig ginkgoConfig env).
Proof. reflexivity. Qed.

Lemma GinkgoWriter_stays_internal (st : State) :
  writer_is_internal st ->
  (forall d, writer_is_internal (snd (declare d st)))
  /\ (forall message callerSkip, writer_is_internal (snd (Fail message callerSkip st)))
  /\ writer_is_internal (snd (GinkgoRecover st))
  /\ (forall t description,
        writer_is_internal (snd (RunSpecs t description st)))
  /\ (forall t description specReporters,
        writer_is_internal (snd (RunSpecsWithCustomReporters t description specReporters st))
        /\ writer_is_internal
             (snd (RunSpecsWithDefaultAndCustomReporters t description specReporters st))).
Proof.
  unfold writer_is_internal. destruct (GinkgoWriter st) as [writer|] eqn:Hw; [|done].
  intros _. destruct (buildDefaultReporter_returns st) as [r Hr].
  repeat split.
  - intros d. destruct d; simpl; by rewrite Hw.
  - intros message callerSkip. destruct callerSkip; simpl; by rewrite Hw.
  - unfold GinkgoRecover, bind, recover. simpl.
    destruct (default VNil (panicking st)); simpl; by rewrite Hw.
  - intros t description. rewrite (RunSpecs_delegates _ _ _ _ Hr).
    by rewrite (RunSpecsWithCustomReporters_runs _ _ _ _ _ Hw).
  - by rewrite (RunSpecsWithCustomReporters_runs _ _ _ _ _ Hw).
  - rewrite (RunSpecsWithDefaultAndCustomReporters_delegates _ _ _ _ _ Hr).
    by rewrite (RunSpecsWithCustomReporters_runs _ _ _ _ _ Hw).
Qed.

(** C7: the suite is run with the reporters in the order they were given:
    [RunSpecsWithCustomReporters] hands over the very list it received, and
    [RunSpecsWithDefaultAndCustomReporters] the default reporter followed
    by the custom ones in their order. *)
Theorem reporters_order_preserved t description (custom : list Reporter) st writer :
  GinkgoWriter st = Writer_internal writer ->
  exists writer' r,
    globalSuite (snd (RunSpecsWithCustomReporters t description custom st)) =
      globalSuite st ++ [SuiteRun t description custom writer' (GinkgoConfig st)]
    /\ buildDefaultReporter st = (Returned r, st)
    /\ globalSuite (snd (RunSpecsWithDefaultAndCustomReporters t description custom st)) =
      globalSuite st ++ [SuiteRun t description (r :: custom) writer' (GinkgoConfig st)].
Proof.
  intros Hw. destruct (buildDefaultReporter_returns st) as [r Hr].
  exists (SetDirectToStdout (Verbose (DefaultReporterConfig st)) writer), r.
  rewrite (RunSpecsWithDefaultAndCustomReporters_delegates _ _ _ _ _ Hr).
  rewrite !(RunSpecsWithCustomReporters_runs _ _ _ _ _ Hw). by repeat split.
Qed.

Lemma writes_direct (ps : list (list Byte.byte)) (w : internal_GinkgoWriter) :
  directToStdout w = true ->
  writes ps w =
    {| directToStdout := true; buffer := buffer w;
       outWriter := outWriter w ++ concat ps |}.
Proof.
  revert w. induction ps as [|p ps IH]; intros w Hd; simpl.
  - destruct w; simpl in *; subst. by rewrite app_nil_r.
  - unfold writes in *. simpl. rewrite IH.
    + unfold GinkgoWriter_Write. rewrite Hd. simpl. by rewrite <- app_assoc.
    + unfold GinkgoWriter_Write. by rewrite Hd.
Qed.

Lemma writes_buffered (ps : list (list Byte.byte)) (w : internal_GinkgoWriter) :
  directToStdout w = false ->
  writes ps w =
    {| directToStdout := false; buffer := buffer w ++ concat ps;
       outWriter := outWriter w |}.
Proof.
  revert w. induction ps as [|p ps IH]; intros w Hd; simpl.
  - destruct w; simpl in *; subst. by rewrite app_nil_r.
  - unfold writes in *. simpl. rewrite IH.
    + unfold GinkgoWriter_Write. rewrite Hd. simpl. by rewrite <- app_assoc.
    + unfold GinkgoWriter_Write. by rewrite Hd.
Qed.

(** C8: each of the three entry points puts the shared writer in the mode
    given by the Verbose setting before it runs the suite, so the suite runs
    with a writer on which, when Verbose is set, every write goes straight
    to the real sink, and otherwise every write is kept in the buffer. *)
Theorem writer_mode_follows_Verbose t description (custom : list Reporter) st writer :
  GinkgoWriter st = Writer_internal writer ->
  let verbose := Verbose (DefaultReporterConfig st) in
  exists writer',
    directToStdout writer' = verbose
    /\ runs_suite_with (RunSpecsWithCustomReporters t description custom) st writer'
    /\ runs_suite_with (RunSpecs t description) st writer'
    /\ runs_suite_with (RunSpecsWithDefaultAndCustomReporters t description custom) st writer'
    /\ (forall ps,
          (verbose = true ->
             outWriter (writes ps writer') = outWriter writer' ++ concat ps
             /\ buffer (writes ps writer') = buffer writer')
          /\ (verbose = false ->
             buffer (writes ps writer') = buffer writer' ++ concat ps
             /\ outWriter (writes ps writer') = outWriter writer')).
Proof.
  intros Hw verbose. destruct (buildDefaultReporter_returns st) as [r Hr].
  exists (SetDirectToStdout verbose writer).
  unfold runs_suite_with.
  rewrite (RunSpecs_delegates _ _ _ _ Hr).
  rewrite (RunSpecsWithDefaultAndCustomReporters_delegates _ _ _ _ _ Hr).
  rewrite !(RunSpecsWithCustomReporters_runs _ _ _ _ _ Hw). fold verbose.
  split; [reflexivity|]. do 3 (split; [split; eauto|]).
  intros ps. split; intros Hv.
  - by rewrite writes_direct.
  - by rewrite writes_buffered.
Qed.

(** *** [float64] arithmetic on whole seconds *)

Lemma digits2_pos_log2 (p : positive) :
  Z.pos (digits2_pos p) = Z.log2 (Z.pos p) + 1.
Proof.
  assert (forall q, digits2_pos q = Pos.size q) as Hsize
    by (induction q; simpl; congruence).
  destruct p; simpl; rewrite ?Hsize; lia.
Qed.

Lemma shr_1_even (m : Z) :
  0 < m ->
  shr_1 {| shr_m := m * 2; shr_r := false; shr_s := false |} =
    {| shr_m := m; shr_r := false; shr_s := false |}.
Proof.
  destruct m as [|q|q]; try lia. intros _.
  rewrite Z.mul_comm. reflexivity.
Qed.

Lemma pow2_xI (p : positive) : 2 ^ Z.pos p~1 = 2 ^ Z.pos p * 2 ^ Z.pos p * 2.
Proof.
  rewrite Pos2Z.inj_xI, <- Z.pow_add_r by lia.
  replace (2 * Z.pos p + 1) with (Z.succ (Z.pos p + Z.pos p)) by lia.
  rewrite Z.pow_succ_r by lia. ring.
Qed.

Lemma pow2_xO (p : positive) : 2 ^ Z.pos p~0 = 2 ^ Z.pos p * 2 ^ Z.pos p.
Proof. rewrite Pos2Z.inj_xO, <- Z.pow_add_r by lia. f_equal. lia. Qed.

Lemma iter_pos_shr_1_exact (p : positive) : forall m : Z,
  0 < m ->
  SpecFloat.iter_pos shr_1 p {| shr_m := m * 2 ^ Z.pos p; shr_r := false; shr_s := false |} =
    {| shr_m := m; shr_r := false; shr_s := false |}.
Proof.
  induction p as [p IH|p IH|]; intros m Hm; cbn [SpecFloat.iter_pos].
  - rewrite pow2_xI, !Z.mul_assoc.
    rewrite shr_1_even by lia. rewrite IH by lia. apply IH; lia.
  - rewrite pow2_xO, !Z.mul_assoc.
    rewrite IH by lia. apply IH; lia.
  - change (2 ^ 1) with 2. apply shr_1_even; lia.
Qed.

Lemma Zdigits2_log2 (z : Z) : 0 < z -> Zdigits2 z = Z.log2 z + 1.
Proof. destruct z; try lia. intros _. apply digits2_pos_log2. Qed.

(** A Float64.significand of exactly 53 bits followed by [j] zero bits rounds to
    itself. *)
Lemma shr_fexp_exact (x : positive) (j e : Z) :
  Z.log2 (Z.pos x) = 52 -> 0 <= j -> -1074 <= e + j ->
  shr_fexp 53 1024 (Z.pos x * 2 ^ j) e loc_Exact =
    ({| shr_m := Z.pos x; shr_r := false; shr_s := false |}, e + j).
Proof.
  intros Hx Hj He. unfold shr_fexp. cbn [shr_record_of_loc].
  rewrite Zdigits2_log2 by lia.
  rewrite Z.log2_mul_pow2 by lia. rewrite Hx.
  unfold fexp, emin.
  replace (Z.max (j + 52 + 1 + e - 53) (3 - 1024 - 53) - e) with j by lia.
  unfold shr. destruct j as [|p|p]; try lia.
  - rewrite Z.mul_1_r, Z.add_0_r. reflexivity.
  - rewrite iter_pos_shr_1_exact by lia. reflexivity.
Qed.

Lemma binary_round_aux_exact (s : bool) (x : positive) (j e : Z) :
  Z.log2 (Z.pos x) = 52 -> 0 <= j -> -1074 <= e + j <= 971 ->
  binary_round_aux 53 1024 s (Z.pos x * 2 ^ j) e loc_Exact = S754_finite s x (e + j).
Proof.
  intros Hx Hj He. unfold binary_round_aux.
  rewrite shr_fexp_exact by lia.
  cbn [shr_m shr_r shr_s loc_of_shr_record round_nearest_even].
  pose proof (shr_fexp_exact x 0 (e + j) Hx) as H0.
  rewrite Z.mul_1_r, Z.add_0_r in H0. rewrite H0 by lia.
  cbn [shr_m]. 
  destruct (Z.leb_spec (e + j) (1024 - 53)); [reflexivity|lia].
Qed.

Lemma binary_round_aux_canonical (s : bool) (x : positive) (e : Z) :
  Z.log2 (Z.pos x) = 52 -> -1074 <= e <= 971 ->
  binary_round_aux 53 1024 s (Z.pos x) e loc_Exact = S754_finite s x e.
Proof.
  intros Hx He. pose proof (binary_round_aux_exact s x 0 e Hx) as H.
  rewrite Z.mul_1_r, Z.add_0_r in H. apply H; lia.
Qed.

Lemma pos_iter_xO (p d : positive) : Z.pos (Pos.iter xO p d) = Z.pos p * 2 ^ Z.pos d.
Proof.
  rewrite (Pos.iter_swap_gen _ _ Z.pos xO (Z.mul 2)) by reflexivity.
  change (Pos.iter (Z.mul 2) (Z.pos p) d) with (Z.shiftl (Z.pos p) (Z.pos d)).
  apply Z.shiftl_mul_pow2. lia.
Qed.

Lemma significand_spec (q : Z) :
  0 < q -> Z.log2 q <= 52 ->
  Z.pos (Float64.significand q) = q * 2 ^ (52 - Z.log2 q)
  /\ Z.log2 (Z.pos (Float64.significand q)) = 52.
Proof.
  intros Hq Hl. unfold Float64.significand.
  assert (0 < q * 2 ^ (52 - Z.log2 q)) by (apply Z.mul_pos_pos; [lia|apply Z.pow_pos_nonneg; lia]).
  rewrite Z2Pos.id by lia. split; [reflexivity|].
  rewrite Z.log2_mul_pow2 by lia. lia.
Qed.

Lemma binary_round_int (s : bool) (p : positive) :
  Z.log2 (Z.pos p) <= 52 ->
  binary_round 53 1024 s p 0 =
    S754_finite s (Float64.significand (Z.pos p)) (Z.log2 (Z.pos p) - 52).
Proof.
  intros Hl. destruct (significand_spec (Z.pos p)) as [Hs Hs52]; [lia|lia|].
  pose proof (Z.log2_nonneg (Z.pos p)) as Hnn.
  unfold binary_round. rewrite digits2_pos_log2. unfold fexp, emin.
  replace (Z.max (Z.log2 (Z.pos p) + 1 + 0 - 53) (3 - 1024 - 53))
    with (Z.log2 (Z.pos p) - 52) by lia.
  unfold shl_align.
  destruct (Z.log2 (Z.pos p) - 52 - 0) as [|d|d] eqn:E; try lia.
  - replace (52 - Z.log2 (Z.pos p)) with 0 in Hs by lia.
    rewrite Z.mul_1_r in Hs. apply Pos2Z.inj in Hs. rewrite Hs.
    rewrite binary_round_aux_canonical.
    + f_equal. lia.
    + rewrite <- Hs. exact Hs52.
    + lia.
  - replace (52 - Z.log2 (Z.pos p)) with (Z.pos d) in Hs by lia.
    rewrite <- pos_iter_xO in Hs. apply Pos2Z.inj in Hs. rewrite <- Hs.
    rewrite binary_round_aux_canonical.
    + reflexivity.
    + exact Hs52.
    + lia.
Qed.


(** The product of a whole number of seconds and [float64(time.Second)]
    is exact as long as it fits the 53 bits of a significand. *)
Lemma mul_second_pos (s : bool) (p : positive) :
  Z.pos p * 1000000000 < 2 ^ 53 ->
  Float64.trunc
    (Float64.mul (binary_round 53 1024 s p 0)
       (S754_finite false 8388608000000000 (-23)))
  = Some (cond_Zopp s (Z.pos p * 1000000000)).
Proof.
  intros Hfit.
  set (q := Z.pos p * 1000000000) in *.
  assert (0 < q) as Hq by (unfold q; lia).
  assert (Z.log2 q <= 52) as Hlq.
  { apply Z.lt_succ_r. apply Z.log2_lt_pow2; [lia|]. exact Hfit. }
  assert (Z.log2 (Z.pos p) + 29 <= Z.log2 q) as Hlp.
  { rewrite Z.add_comm. rewrite <- (Z.log2_mul_pow2 (Z.pos p) 29) by lia.
    apply Z.log2_le_mono. unfold q. change (2 ^ 29) with 536870912. lia. }
  pose proof (Z.log2_nonneg (Z.pos p)) as Hnn.
  rewrite binary_round_int by lia.
  destruct (significand_spec (Z.pos p)) as [Hp Hp52]; [lia|lia|].
  destruct (significand_spec q) as [Hx Hx52]; [lia|lia|].
  unfold Float64.mul, Float64.prec, Float64.emax, SFmul. rewrite Bool.xorb_false_r.
  set (j := 23 + Z.log2 q - Z.log2 (Z.pos p)).
  assert (Z.pos (Float64.significand (Z.pos p) * 8388608000000000)
          = Z.pos (Float64.significand q) * 2 ^ j) as Hprod.
  { rewrite Pos2Z.inj_mul, Hp, Hx.
    change (Z.pos 8388608000000000) with (1000000000 * 2 ^ 23).
    transitivity (q * 2 ^ (75 - Z.log2 (Z.pos p))).
    - replace (75 - Z.log2 (Z.pos p)) with (52 - Z.log2 (Z.pos p) + 23) by lia.
      rewrite Z.pow_add_r by lia. unfold q. ring.
    - replace (75 - Z.log2 (Z.pos p)) with (52 - Z.log2 q + j) by (unfold j; lia).
      rewrite Z.pow_add_r by (unfold j; lia). ring. }
  rewrite Hprod. rewrite binary_round_aux_exact by (unfold j; lia).
  unfold Float64.trunc. f_equal. f_equal.
  replace (Z.log2 (Z.pos p) - 52 + -23 + j) with (- (52 - Z.log2 q)) by (unfold j; lia).
  rewrite Z.shiftl_opp_r, Z.shiftr_div_pow2 by lia.
  rewrite Hx. apply Z.div_mul. apply Z.pow_nonzero; lia.
Qed.

Lemma mul_whole_seconds (n : Z) :
  Z.abs n * time_Second < 2 ^ Float64.prec ->
  Float64.trunc (Float64.mul (Float64.of_int n) (Float64.of_int time_Second))
  = Some (n * time_Second).
Proof.
  change (Float64.of_int time_Second) with (S754_finite false 8388608000000000 (-23)).
  change time_Second with 1000000000. change Float64.prec with 53.
  destruct n as [|p|p]; intros Hfit.
  - reflexivity.
  - exact (mul_second_pos false p Hfit).
  - exact (mul_second_pos true p Hfit).
Qed.

(** A whole number of seconds, up to 9007199 of them either way, becomes
    exactly that many seconds. *)
Lemma seconds_whole (n : Z) :
  Z.abs n * time_Second < 2 ^ Float64.prec ->
  seconds (Float64.of_int n) = n * time_Second.
Proof.
  intros Hfit. unfold seconds, Float64.to_int64.
  rewrite mul_whole_seconds by exact Hfit.
  change time_Second with 1000000000 in *. change Float64.prec with 53 in *.
  assert (Int64.in_range (n * 1000000000) = true) as ->; [|reflexivity].
  unfold Int64.in_range, Int64.min_int, Int64.max_int.
  apply andb_true_intro. split; apply Z.leb_le; lia.
Qed.

Lemma parseTimeout_default : parseTimeout unrepresentable [] = time_Second.
Proof. reflexivity. Qed.

Lemma seconds_half : seconds (S754_finite false 1 (-1)) = 500000000.
Proof. reflexivity. Qed.

Lemma seconds_one_and_a_half : seconds (S754_finite false 3 (-1)) = 1500000000.
Proof. reflexivity. Qed.

(** 0.1, the nearest [float64] to it. *)
Lemma seconds_tenth : seconds (S754_finite false 7205759403792794 (-56)) = 100000000.
Proof. reflexivity. Qed.

(** C1: a leaf or hook declared without a timeout gets a node whose
    timeout is one second; declared with a timeout [t], it gets the
    duration [t * float64(time.Second)] converted to [time.Duration],
    which for a whole number [n] of seconds is [n] seconds exactly. *)
Theorem declared_timeout (text : string) (body : GoValue) :
  (attaches_timeout (It text body []) time_Second
   /\ attaches_timeout (FIt text body []) time_Second
   /\ attaches_timeout (BeforeEach body []) time_Second
   /\ attaches_timeout (JustBeforeEach body []) time_Second
   /\ attaches_timeout (AfterEach body []) time_Second)
  /\ (forall t rest,
        attaches_timeout (It text body (t :: rest)) (seconds t)
        /\ attaches_timeout (FIt text body (t :: rest)) (seconds t)
        /\ attaches_timeout (BeforeEach body (t :: rest)) (seconds t)
        /\ attaches_timeout (JustBeforeEach body (t :: rest)) (seconds t)
        /\ attaches_timeout (AfterEach body (t :: rest)) (seconds t))
  /\ (forall n rest,
        Z.abs n * time_Second < 2 ^ Float64.prec ->
        let t := Float64.of_int n in
        attaches_timeout (It text body (t :: rest)) (n * time_Second)
        /\ attaches_timeout (FIt text body (t :: rest)) (n * time_Second)
        /\ attaches_timeout (BeforeEach body (t :: rest)) (n * time_Second)
        /\ attaches_timeout (JustBeforeEach body (t :: rest)) (n * time_Second)
        /\ attaches_timeout (AfterEach body (t :: rest)) (n * time_Second))
  /\ time_Second = 1000000000 * time_Nanosecond.
Proof.
  split; [|split; [intros t rest|split; [intros n rest Hfit t|reflexivity]]].
  - repeat split; (eexists; split; [intros st; reflexivity|reflexivity]).
  - repeat split; (eexists; split; [intros st; reflexivity|reflexivity]).
  - rewrite <- (seconds_whole n Hfit). fold t.
    repeat split; (eexists; split; [intros st; reflexivity|reflexivity]).
Qed.

(** C10: a supplied timeout is never replaced by the default.  Whatever
    the first value [t] is, the result is [t * float64(time.Second)]
    converted to [time.Duration]: zero for a zero, which is not the
    default, and exactly [n] seconds, negative ones included, for a whole
    number [n] of seconds. *)
Theorem parseTimeout_honours_supplied (t : float64) (rest : list float64) :
  parseTimeout unrepresentable (t :: rest) = seconds t
  /\ (Float64.is_zero t = true ->
      parseTimeout unrepresentable (t :: rest) = 0
      /\ parseTimeout unrepresentable (t :: rest) <> parseTimeout unrepresentable [])
  /\ (forall n, t = Float64.of_int n -> Z.abs n * time_Second < 2 ^ Float64.prec ->
      parseTimeout unrepresentable (t :: rest) = n * time_Second).
Proof.
  split; [reflexivity|split].
  - intros Hz. destruct t; try discriminate. split; [reflexivity|discriminate].
  - intros n -> Hfit. exact (seconds_whole n Hfit).
Qed.

(* =================================================================== *)
(** ** Programs: what holds however the functions are called *)
(* =================================================================== *)

Lemma run_cons (c : Call) (p : list Call) (st : State) :
  run (c :: p) st = run p (exec c st).
Proof. reflexivity. Qed.

Lemma run_app (p q : list Call) (st : State) :
  run (p ++ q) st = run q (run p st).
Proof. apply foldl_app. Qed.

(** One call: the configuration and the environment stay, and the suite
    keeps all it had received. *)
Lemma exec_frame (c : Call) (st : State) :
  DefaultReporterConfig (exec c st) = DefaultReporterConfig st
  /\ GinkgoConfig (exec c st) = GinkgoConfig st
  /\ environ (exec c st) = environ st
  /\ globalSuite st `prefix_of` globalSuite (exec c st).
Proof.
  destruct (buildDefaultReporter_returns st) as [r Hr].
  assert (forall t description specReporters,
    let st' := snd (RunSpecsWithCustomReporters t description specReporters st) in
    DefaultReporterConfig st' = DefaultReporterConfig st
    /\ GinkgoConfig st' = GinkgoConfig st
    /\ environ st' = environ st
    /\ globalSuite st `prefix_of` globalSuite st') as Hrun.
  { intros t description specReporters st'. subst st'.
    destruct (GinkgoWriter st) as [writer|other] eqn:Hw.
    - rewrite (RunSpecsWithCustomReporters_runs _ _ _ _ _ Hw). simpl.
      repeat split. by eexists.
    - rewrite (RunSpecsWithCustomReporters_other_writer _ _ _ _ _ Hw). done. }
  destruct c as [d|message callerSkip| |message callerSkip|t description
                |t description specReporters|t description specReporters]; simpl.
  - destruct d; simpl; repeat split; by eexists.
  - destruct callerSkip; simpl; repeat split; by eexists.
  - unfold GinkgoRecover, bind, recover.
    destruct (default VNil (panicking st)); simpl; repeat split;
      first [by eexists | by exists []; rewrite app_nil_r].
  - destruct callerSkip; simpl; repeat split;
      eexists; by rewrite <- app_assoc.
  - rewrite (RunSpecs_delegates _ _ _ _ Hr). apply Hrun.
  - rewrite (RunSpecsWithDefaultAndCustomReporters_delegates _ _ _ _ _ Hr). apply Hrun.
  - apply Hrun.
Qed.

(** The reporter [buildDefaultReporter] answers with, from the two things
    it reads. *)
Lemma buildDefaultReporter_answer (st : State) :
  fst (buildDefaultReporter st) =
    Returned (default_reporter_for (DefaultReporterConfig st) (environ st)).
Proof.
  unfold buildDefaultReporter, default_reporter_for, bind, gets, ret.
  by destruct (decide (_ = EmptyString)).
Qed.

(** X1: no program changes the configuration or the environment, and none
    takes back anything the suite has received; so [buildDefaultReporter]
    answers the same before and after any program. *)
Theorem program_keeps_configuration (p : list Call) (st : State) :
  DefaultReporterConfig (run p st) = DefaultReporterConfig st
  /\ GinkgoConfig (run p st) = GinkgoConfig st
  /\ environ (run p st) = environ st
  /\ globalSuite st `prefix_of` globalSuite (run p st)
  /\ fst (buildDefaultReporter (run p st)) = fst (buildDefaultReporter st).
Proof.
  assert (DefaultReporterConfig (run p st) = DefaultReporterConfig st
          /\ GinkgoConfig (run p st) = GinkgoConfig st
          /\ environ (run p st) = environ st
          /\ globalSuite st `prefix_of` globalSuite (run p st)) as H.
  { revert st. induction p as [|c p IH]; intros st.
    - by repeat split.
    - rewrite run_cons. destruct (IH (exec c st)) as (H1 & H2 & H3 & H4).
      destruct (exec_frame c st) as (E1 & E2 & E3 & E4).
      repeat split; try congruence. by etrans. }
  destruct H as (H1 & H2 & H3 & H4). repeat split; try done.
  rewrite !buildDefaultReporter_answer. by rewrite H1, H3.
Qed.

Lemma existsb_snoc {A} (f : A -> bool) (l : list A) (x : A) :
  existsb f (l ++ [x]) = existsb f l || f x.
Proof. rewrite existsb_app. simpl. by rewrite orb_false_r. Qed.

(** What [RunSpecsWithCustomReporters] does in a state of a program. *)
Lemma RunSpecsWithCustomReporters_invariant rc gc env t description specReporters st :
  invariant rc gc env st ->
  invariant rc gc env (snd (RunSpecsWithCustomReporters t description specReporters st)).
Proof.
  intros (H1 & H2 & H3 & H4 & Hok & Hw).
  rewrite (RunSpecsWithCustomReporters_runs _ _ _ _ _ Hw).
  unfold invariant. simpl. rewrite existsb_snoc. simpl. rewrite orb_true_r.
  rewrite H1, H2. repeat split; try done.
  apply Forall_app. split; [done|]. by repeat constructor.
Qed.

(** One call keeps the invariant. *)
Lemma exec_invariant rc gc env (c : Call) (st : State) :
  invariant rc gc env st -> invariant rc gc env (exec c st).
Proof.
  intros Hinv. destruct (buildDefaultReporter_returns st) as [r Hr].
  destruct c as [d|message callerSkip| |message callerSkip|t description
                |t description specReporters|t description specReporters]; simpl.
  - destruct Hinv as (H1 & H2 & H3 & H4 & Hok & Hw).
    destruct d; unfold invariant; simpl; rewrite existsb_snoc; simpl;
      rewrite orb_false_r; (repeat split; try done);
      (apply Forall_app; split; [done|]); repeat constructor; done.
  - destruct Hinv as (H1 & H2 & H3 & H4 & Hok & Hw).
    destruct callerSkip; unfold invariant; simpl; rewrite existsb_snoc; simpl;
      rewrite orb_false_r; (repeat split; try done);
      (apply Forall_app; split; [done|]); by repeat constructor.
  - destruct Hinv as (H1 & H2 & H3 & H4 & Hok & Hw).
    unfold GinkgoRecover, bind, recover. rewrite H4. simpl.
    unfold invariant. simpl. by repeat split.
  - destruct Hinv as (H1 & H2 & H3 & H4 & Hok & Hw).
    destruct callerSkip; unfold invariant; simpl; rewrite !existsb_snoc; simpl;
      rewrite !orb_false_r; (repeat split; try done);
      (apply Forall_app; split; [|by repeat constructor]);
      (apply Forall_app; split; [done|]); by repeat constructor.
  - rewrite (RunSpecs_delegates _ _ _ _ Hr).
    by apply RunSpecsWithCustomReporters_invariant.
  - rewrite (RunSpecsWithDefaultAndCustomReporters_delegates _ _ _ _ _ Hr).
    by apply RunSpecsWithCustomReporters_invariant.
  - by apply RunSpecsWithCustomReporters_invariant.
Qed.

Lemma init_invariant rc gc env : invariant rc gc env (init rc gc env).
Proof. unfold invariant. simpl. by repeat split. Qed.

Lemma run_invariant rc gc env (p : list Call) (st : State) :
  invariant rc gc env st -> invariant rc gc env (run p st).
Proof.
  revert st. induction p as [|c p IH]; intros st Hinv; [done|].
  rewrite run_cons. apply IH. by apply exec_invariant.
Qed.


(** X3: whatever the program, every call the suite has received is well
    formed: each location is that of the caller, each pending leaf has
    the empty body with no time and no samples, and each run has the
    program's configuration and a writer in the mode of Verbose. *)
Theorem suite_calls_well_formed rc gc env (p : list Call) :
  Forall (call_ok rc gc) (globalSuite (run p (init rc gc env))).
Proof.
  by destruct (run_invariant rc gc env p _ (init_invariant rc gc env))
    as (_ & _ & _ & _ & Hok & _).
Qed.

(** X4: once the suite has been run the shared writer is in the mode of
    Verbose, and it stays so whatever is called afterwards. *)
Theorem writer_mode_is_kept rc gc env (p : list Call) :
  let st := run p (init rc gc env) in
  exists writer,
    GinkgoWriter st = Writer_internal writer
    /\ (existsb is_SuiteRun (globalSuite st) = true ->
        directToStdout writer = Verbose rc).
Proof.
  intros st.
  destruct (run_invariant rc gc env p _ (init_invariant rc gc env))
    as (_ & _ & _ & _ & _ & Hw). fold st in Hw.
  eexists. split; [exact Hw|]. simpl. by intros ->.
Qed.

Lemma runs_of_snoc (calls : list SuiteCall) (c : SuiteCall) :
  runs_of (calls ++ [c]) = (runs_of calls + if is_SuiteRun c then 1 else 0)%nat.
Proof.
  unfold runs_of. rewrite List.filter_app, length_app. simpl.
  by destruct (is_SuiteRun c).
Qed.

Lemma exec_runs_of rc gc env (c : Call) (st : State) :
  invariant rc gc env st ->
  runs_of (globalSuite (exec c st)) =
    (runs_of (globalSuite st) + if is_entry_point c then 1 else 0)%nat.
Proof.
  intros (H1 & H2 & H3 & H4 & Hok & Hw).
  destruct (buildDefaultReporter_returns st) as [r Hr].
  destruct c as [d|message callerSkip| |message callerSkip|t description
                |t description specReporters|t description specReporters]; simpl.
  - destruct d; simpl; by rewrite runs_of_snoc.
  - destruct callerSkip; simpl; by rewrite runs_of_snoc.
  - unfold GinkgoRecover, bind, recover. rewrite H4. simpl. lia.
  - destruct callerSkip; simpl; rewrite !runs_of_snoc; simpl; lia.
  - rewrite (RunSpecs_delegates _ _ _ _ Hr).
    rewrite (RunSpecsWithCustomReporters_runs _ _ _ _ _ Hw). simpl.
    by rewrite runs_of_snoc.
  - rewrite (RunSpecsWithDefaultAndCustomReporters_delegates _ _ _ _ _ Hr).
    rewrite (RunSpecsWithCustomReporters_runs _ _ _ _ _ Hw). simpl.
    by rewrite runs_of_snoc.
  - rewrite (RunSpecsWithCustomReporters_runs _ _ _ _ _ Hw). simpl.
    by rewrite runs_of_snoc.
Qed.

(** X5: the suite is run once for each call of an entry point, and by
    nothing else: no declaration and no failure runs it. *)
Theorem suite_run_once_per_entry_point rc gc env (p : list Call) :
  runs_of (globalSuite (run p (init rc gc env))) =
    length (List.filter is_entry_point p).
Proof.
  assert (forall st, invariant rc gc env st ->
            runs_of (globalSuite (run p st)) =
              (runs_of (globalSuite st) + length (List.filter is_entry_point p))%nat) as H.
  { induction p as [|c p IH]; intros st Hinv.
    - simpl. lia.
    - rewrite run_cons, (IH _ (exec_invariant _ _ _ c st Hinv)).
      rewrite (exec_runs_of _ _ _ c st Hinv). simpl.
      destruct (is_entry_point c); simpl; lia. }
  by rewrite (H _ (init_invariant rc gc env)).
Qed.

Lemma declare_pushes (d : Declaration) (st : State) :
  exists c, snd (declare d st) = set_globalSuite (globalSuite st ++ [c]) st
            /\ call_flag c = flag_of_name (name d).
Proof. destruct d; by eexists. Qed.

(** X6: declarations made one after the other reach the suite in that
    order, one node each, with the flag the name of each asks for; they
    leave the writer and everything else alone. *)
Theorem declarations_in_order (ds : list Declaration) (st : State) :
  let st' := run (do_declare <$> ds) st in
  exists nodes,
    st' = set_globalSuite (globalSuite st ++ nodes) st
    /\ call_flag <$> nodes = (fun d => flag_of_name (name d)) <$> ds.
Proof.
  revert st. induction ds as [|d ds IH]; intros st; cbn zeta.
  - exists []. split; [|done]. rewrite app_nil_r. by destruct st.
  - rewrite fmap_cons, run_cons. cbn [exec].
    destruct (declare_pushes d st) as (c & -> & Hc).
    destruct (IH (set_globalSuite (globalSuite st ++ [c]) st)) as (nodes & -> & Hn).
    exists (c :: nodes). split.
    + simpl. by rewrite <- app_assoc.
    + rewrite !fmap_cons. by rewrite Hc, Hn.
Qed.

(* =================================================================== *)
(** ** More on timeouts *)
(* =================================================================== *)

(** [time.Second] is [5^9 * 2^9] nanoseconds: a whole number of seconds
    times it has nine zero bits at its end, so the product is exact as
    long as [n * 5^9] fits the 53 bits of a significand. *)
Lemma mul_second_pos_wide (s : bool) (p : positive) :
  Z.pos p * 1953125 < 2 ^ 53 ->
  Float64.trunc
    (Float64.mul (binary_round 53 1024 s p 0)
       (S754_finite false 8388608000000000 (-23)))
  = Some (cond_Zopp s (Z.pos p * 1000000000)).
Proof.
  intros Hfit.
  set (r := Z.pos p * 1953125) in *.
  assert (0 < r) as Hr by (unfold r; lia).
  assert (Z.log2 r <= 52) as Hlr.
  { apply Z.lt_succ_r. apply Z.log2_lt_pow2; [lia|]. exact Hfit. }
  assert (Z.log2 (Z.pos p) + 20 <= Z.log2 r) as Hlp.
  { rewrite Z.add_comm. rewrite <- (Z.log2_mul_pow2 (Z.pos p) 20) by lia.
    apply Z.log2_le_mono. unfold r. change (2 ^ 20) with 1048576. lia. }
  pose proof (Z.log2_nonneg (Z.pos p)) as Hnn.
  rewrite binary_round_int by lia.
  destruct (significand_spec (Z.pos p)) as [Hp Hp52]; [lia|lia|].
  destruct (significand_spec r) as [Hx Hx52]; [lia|lia|].
  unfold Float64.mul, Float64.prec, Float64.emax, SFmul. rewrite Bool.xorb_false_r.
  set (j := 32 + Z.log2 r - Z.log2 (Z.pos p)).
  assert (Z.pos (Float64.significand (Z.pos p) * 8388608000000000)
          = Z.pos (Float64.significand r) * 2 ^ j) as Hprod.
  { rewrite Pos2Z.inj_mul, Hp, Hx.
    change (Z.pos 8388608000000000) with (1953125 * 2 ^ 32).
    transitivity (r * 2 ^ (84 - Z.log2 (Z.pos p))).
    - replace (84 - Z.log2 (Z.pos p)) with (52 - Z.log2 (Z.pos p) + 32) by lia.
      rewrite Z.pow_add_r by lia. unfold r. ring.
    - replace (84 - Z.log2 (Z.pos p)) with (52 - Z.log2 r + j) by (unfold j; lia).
      rewrite Z.pow_add_r by (unfold j; lia). ring. }
  rewrite Hprod. rewrite binary_round_aux_exact by (unfold j; lia).
  unfold Float64.trunc. f_equal. f_equal.
  replace (Z.log2 (Z.pos p) - 52 + -23 + j) with (Z.log2 r - 43) by (unfold j; lia).
  rewrite Hx.
  replace (Z.pos p * 1000000000) with (r * 2 ^ 9) by (unfold r; lia).
  destruct (Z.le_gt_cases 43 (Z.log2 r)) as [Hge|Hlt].
  - rewrite Z.shiftl_mul_pow2 by lia. rewrite <- Z.mul_assoc, <- Z.pow_add_r by lia.
    f_equal. f_equal. lia.
  - replace (Z.log2 r - 43) with (- (43 - Z.log2 r)) by lia.
    rewrite Z.shiftl_opp_r, Z.shiftr_div_pow2 by lia.
    replace (52 - Z.log2 r) with (9 + (43 - Z.log2 r)) by lia.
    rewrite Z.pow_add_r, Z.mul_assoc by lia.
    apply Z.div_mul. apply Z.pow_nonzero; lia.
Qed.

(** X7: a timeout of a whole number of seconds is kept exactly for every
    [n] with [|n| * 5^9 < 2^53], that is up to 4611686018 seconds either
    way; the bound is sharp, the next whole second comes out 512 ns off. *)
Theorem whole_seconds_exact_range (rest : list float64) :
  (forall n, Z.abs n * 1953125 < 2 ^ Float64.prec ->
     parseTimeout unrepresentable (Float64.of_int n :: rest) = n * time_Second)
  /\ (forall n, Z.abs n <= 4611686018 -> Z.abs n * 1953125 < 2 ^ Float64.prec)
  /\ parseTimeout unrepresentable (Float64.of_int 4611686019 :: rest)
     = 4611686019 * time_Second + 512.
Proof.
  split; [|split].
  - intros n Hfit. unfold parseTimeout, Float64.to_int64.
    change (Float64.of_int time_Second) with (S754_finite false 8388608000000000 (-23)).
    change time_Second with 1000000000. change Float64.prec with 53 in Hfit.
    assert (Float64.trunc
              (Float64.mul (Float64.of_int n) (S754_finite false 8388608000000000 (-23)))
            = Some (n * 1000000000)) as ->.
    { destruct n as [|p|p].
      - reflexivity.
      - exact (mul_second_pos_wide false p Hfit).
      - exact (mul_second_pos_wide true p Hfit). }
    assert (Int64.in_range (n * 1000000000) = true) as ->; [|reflexivity].
    unfold Int64.in_range, Int64.min_int, Int64.max_int.
    apply andb_true_intro. split; apply Z.leb_le; lia.
  - intros n Hn. change Float64.prec with 53. lia.
  - vm_compute. reflexivity.
Qed.

(* =================================================================== *)
(** ** More on running the suite *)
(* =================================================================== *)

(** X9: when [GinkgoWriter] has been given another writer, each of the
    three entry points panics on the type assertion, the suite is not run
    and nothing is changed. *)
Theorem entry_points_need_own_writer t description specReporters st other :
  GinkgoWriter st = Writer_other other ->
  RunSpecsWithCustomReporters t description specReporters st
    = (Panicked interface_conversion, st)
  /\ RunSpecs t description st = (Panicked interface_conversion, st)
  /\ RunSpecsWithDefaultAndCustomReporters t description specReporters st
    = (Panicked interface_conversion, st).
Proof.
  intros Hw. destruct (buildDefaultReporter_returns st) as [r Hr].
  rewrite (RunSpecs_delegates _ _ _ _ Hr).
  rewrite (RunSpecsWithDefaultAndCustomReporters_delegates _ _ _ _ _ Hr).
  by rewrite !(RunSpecsWithCustomReporters_other_writer _ _ _ _ _ Hw).
Qed.

(** X10: [RunSpecs] is [RunSpecsWithDefaultAndCustomReporters] with no
    custom reporter, in every state. *)
Theorem RunSpecs_is_default_and_no_custom t description (st : State) :
  RunSpecs t description st =
    RunSpecsWithDefaultAndCustomReporters t description [] st.
Proof. reflexivity. Qed.

(** X11: the choice of the default reporter reads one variable of the
    environment.  Unset and set to the empty string are the same to it,
    both give the console reporter; any non-empty value gives the
    forwarding reporter on that value; no other variable matters. *)
Theorem default_reporter_reads_one_variable (st : State) :
  let key := "GINKGO_REMOTE_REPORTING_SERVER" in
  let console :=
    reporters_NewDefaultReporter (DefaultReporterConfig st)
      (stenographer_New (negb (NoColor (DefaultReporterConfig st)))) in
  fst (buildDefaultReporter (set_environ (delete key (environ st)) st))
    = Returned console
  /\ fst (buildDefaultReporter (set_environ (<[key := EmptyString]> (environ st)) st))
    = Returned console
  /\ (forall server, server <> EmptyString ->
        fst (buildDefaultReporter (set_environ (<[key := server]> (environ st)) st))
        = Returned (remote_NewForwardingReporter server http_Client_zero
                      remote_NewOutputInterceptor))
  /\ (forall k v, k <> key ->
        fst (buildDefaultReporter (set_environ (<[k := v]> (environ st)) st))
        = fst (buildDefaultReporter st)).
Proof.
  intros key console. rewrite !buildDefaultReporter_answer.
  unfold default_reporter_for, os_Getenv. simpl. fold key.
  rewrite lookup_delete_eq, lookup_insert_eq. simpl.
  repeat split.
  - intros server Hs. rewrite buildDefaultReporter_answer.
    unfold default_reporter_for, os_Getenv. simpl. fold key.
    rewrite lookup_insert_eq. simpl. by rewrite decide_False.
  - intros k v Hk. rewrite !buildDefaultReporter_answer.
    unfold default_reporter_for, os_Getenv. simpl. fold key.
    by rewrite lookup_insert_ne.
Qed.

(* =================================================================== *)
(** ** More on failing *)
(* =================================================================== *)

(** X12: what [defer GinkgoRecover()] does to the rest of a goroutine.  If
    the rest returns, nothing is added; if it panics with a value that is
    not nil, the goroutine ends normally and the suite receives one
    failure, "Goroutine Panicked" with the value, at skip 1. *)
Theorem deferred_GinkgoRecover (body : M unit) (st st1 : State) :
  (body st = (Returned tt, st1) -> panicking st1 = None ->
     defer GinkgoRecover body st = (Returned tt, st1))
  /\ (forall v, body st = (Panicked v, st1) -> v <> VNil ->
     defer GinkgoRecover body st =
       (Returned tt,
        set_globalSuite (globalSuite st1 ++ [SuiteFail (goroutine_panicked v) 1])
          (set_panicking None st1))).
Proof.
  split.
  - intros Hb Hp. unfold defer. rewrite Hb.
    unfold GinkgoRecover, bind, recover. rewrite Hp. simpl.
    unfold ret. by rewrite set_panicking_same.
  - intros v Hb Hv. unfold defer. rewrite Hb.
    unfold GinkgoRecover, bind, recover. simpl.
    destruct v; try done.
Qed.

(** X13: a panic whose value is nil is stopped by [defer GinkgoRecover()]
    too, but nothing is reported: the suite receives no failure. *)
Theorem deferred_GinkgoRecover_nil_panic (body : M unit) (st st1 : State) :
  body st = (Panicked VNil, st1) ->
  defer GinkgoRecover body st = (Returned tt, set_panicking None st1).
Proof. intros Hb. unfold defer. by rewrite Hb. Qed.

(** X14: a second [GinkgoRecover] finds nothing to recover: two calls in a
    row do what one does. *)
Theorem GinkgoRecover_twice (st : State) :
  bind GinkgoRecover (fun _ => GinkgoRecover) st = GinkgoRecover st.
Proof.
  unfold GinkgoRecover, bind, recover. simpl.
  destruct (default VNil (panicking st)); reflexivity.
Qed.

(** X15: [Describe] and [Context] are the same function, and so are their
    focused forms and their four pending forms. *)
Theorem Describe_is_Context (text : string) (body : W -> W) :
  Describe text body = Context text body
  /\ FDescribe text body = FContext text body
  /\ PDescribe text body = PContext text body
  /\ XDescribe text body = XContext text body
  /\ PDescribe text body = XContext text body.
Proof. by repeat split. Qed.

End Ginkgo.

(* ===================================================================== *)
(** ** Worked instances *)
(* ===================================================================== *)

(** A goroutine panics with the string "boom": [GinkgoRecover] reports it
    and returns. *)
Lemma GinkgoRecover_converts_panic_witness :
  let st := set_panicking unit unit (Some (VString unit "boom"))
              (init unit unit {| NoColor := false; Verbose := false |} tt ∅) in
  GinkgoRecover unit unit (fun _ => "boom"%string) st =
    (Returned unit unit tt,
     set_globalSuite unit unit
       [SuiteFail unit unit (goroutine_panicked unit (fun _ => "boom"%string)
                               (VString unit "boom")) 1]
       (set_panicking unit unit None st)).
Proof.
  intros st.
  apply (proj1 (GinkgoRecover_converts_panic unit unit (fun _ => "boom"%string) st)
           (VString unit "boom")).
  - reflexivity.
  - discriminate.
Defined.

(** With the variable set, the default reporter is the forwarding one. *)
Lemma buildDefaultReporter_by_environment_witness :
  let st := init unit unit {| NoColor := false; Verbose := false |} tt
              {[ "GINKGO_REMOTE_REPORTING_SERVER"%string := "127.0.0.1:7788"%string ]} in
  exists r, buildDefaultReporter unit unit st = (Returned unit Reporter r, st)
            /\ r = remote_NewForwardingReporter "127.0.0.1:7788" http_Client_zero
                     remote_NewOutputInterceptor.
Proof.
  intros st.
  destruct (buildDefaultReporter_by_environment unit unit st) as (r & Hr & _ & Hset & _).
  exists r. split; [exact Hr|]. apply Hset. vm_compute. discriminate.
Defined.

(** Two custom reporters reach the suite in the order given, behind the
    default reporter when it is asked for. *)
Lemma reporters_order_preserved_witness :
  let st := init unit unit {| NoColor := false; Verbose := true |} tt ∅ in
  let t := {| T_Fail := fun w : unit => w |} in
  let custom := [CustomReporter "first"; CustomReporter "second"] in
  exists writer' r,
    globalSuite unit unit
      (snd (RunSpecsWithCustomReporters unit unit (fun _ => true) t "suite" custom st)) =
      [SuiteRun unit unit t "suite" custom writer' tt]
    /\ buildDefaultReporter unit unit st = (Returned unit Reporter r, st)
    /\ globalSuite unit unit
      (snd (RunSpecsWithDefaultAndCustomReporters unit unit (fun _ => true) t "suite"
              custom st)) =
      [SuiteRun unit unit t "suite" (r :: custom) writer' tt].
Proof.
  intros st t custom.
  exact (reporters_order_preserved unit unit (fun _ => true) t "suite" custom st
           {| directToStdout := false; buffer := []; outWriter := [] |} eq_refl).
Defined.

(** With Verbose set, the suite is run with a writer that writes through. *)
Lemma writer_mode_follows_Verbose_witness :
  let st := init unit unit {| NoColor := false; Verbose := true |} tt ∅ in
  let t := {| T_Fail := fun w : unit => w |} in
  exists writer',
    directToStdout writer' = true
    /\ runs_suite_with unit unit
         (RunSpecsWithCustomReporters unit unit (fun _ => true) t "suite" []) st writer'
    /\ forall ps, outWriter (writes ps writer') = outWriter writer' ++ concat ps.
Proof.
  intros st t.
  destruct (writer_mode_follows_Verbose unit unit (fun _ => true) t "suite" [] st
              {| directToStdout := false; buffer := []; outWriter := [] |} eq_refl)
    as (writer' & Hmode & Hrun & _ & _ & Hwrites).
  exists writer'. split; [exact Hmode|]. split; [exact Hrun|].
  intros ps. exact (proj1 (proj1 (Hwrites ps) eq_refl)).
Defined.

(** A timeout of minus two seconds is kept as such. *)
Lemma parseTimeout_honours_supplied_witness :
  parseTimeout Float64.amd64_unrepresentable [Float64.of_int (-2)] = -2 * time_Second.
Proof.
  apply (proj2 (proj2 (parseTimeout_honours_supplied Float64.amd64_unrepresentable
                         (Float64.of_int (-2)) [])) (-2)).
  - reflexivity.
  - reflexivity.
Defined.

(** A leaf declared with a timeout of three seconds. *)
Lemma declared_timeout_witness :
  attaches_timeout unit unit
    (It unit unit Float64.amd64_unrepresentable "leaf" (VFunc unit (fun w => w))
       [Float64.of_int 3])
    (3 * time_Second).
Proof.
  exact (proj1 (proj1 (proj2 (proj2 (declared_timeout unit unit
                                       Float64.amd64_unrepresentable "leaf"
                                       (VFunc unit (fun w => w)))))
                  3 [] eq_refl)).
Defined.

(** A timeout of 4611686018 seconds before, the largest that is exact. *)
Lemma whole_seconds_exact_range_witness :
  parseTimeout Float64.amd64_unrepresentable [Float64.of_int (-4611686018)]
  = -4611686018 * time_Second.
Proof.
  apply (proj1 (whole_seconds_exact_range Float64.amd64_unrepresentable [])).
  reflexivity.
Defined.

(** A test file has put its own writer in [GinkgoWriter]. *)
Lemma entry_points_need_own_writer_witness :
  let st := set_GinkgoWriter unit unit (Writer_other "os.Stderr")
              (init unit unit {| NoColor := false; Verbose := false |} tt ∅) in
  RunSpecs unit unit (fun _ => true) {| T_Fail := fun w : unit => w |} "suite" st
  = (Panicked unit bool (interface_conversion unit), st).
Proof.
  intros st.
  exact (proj1 (proj2 (entry_points_need_own_writer unit unit (fun _ => true)
                         {| T_Fail := fun w : unit => w |} "suite" [] st
                         "os.Stderr" eq_refl))).
Defined.

(** Setting the variable to a server, with another variable set too. *)
Lemma default_reporter_reads_one_variable_witness :
  let st := init unit unit {| NoColor := true; Verbose := false |} tt
              {[ "HOME"%string := "/root"%string ]} in
  fst (buildDefaultReporter unit unit
         (set_environ unit unit
            (<[ "GINKGO_REMOTE_REPORTING_SERVER"%string := "127.0.0.1:7788"%string ]>
               (environ unit unit st)) st))
  = Returned unit Reporter
      (remote_NewForwardingReporter "127.0.0.1:7788" http_Client_zero
         remote_NewOutputInterceptor).
Proof.
  intros st.
  apply (proj1 (proj2 (proj2 (default_reporter_reads_one_variable unit unit st)))).
  discriminate.
Defined.

(** A goroutine whose body panics with an error value. *)
Lemma deferred_GinkgoRecover_witness :
  let st := init unit unit {| NoColor := false; Verbose := false |} tt ∅ in
  let v := VError unit "runtime error: integer divide by zero" in
  defer unit unit (GinkgoRecover unit unit (fun _ => "err"%string))
    (@panic unit unit unit v) st
  = (Returned unit unit tt,
     set_globalSuite unit unit
       [SuiteFail unit unit (goroutine_panicked unit (fun _ => "err"%string) v) 1]
       (set_panicking unit unit None st)).
Proof.
  intros st v.
  apply (proj2 (deferred_GinkgoRecover unit unit (fun _ => "err"%string)
                  (@panic unit unit unit v) st st) v).
  - reflexivity.
  - discriminate.
Defined.

(** A goroutine whose body panics with nil. *)
Lemma deferred_GinkgoRecover_nil_panic_witness :
  let st := init unit unit {| NoColor := false; Verbose := false |} tt ∅ in
  defer unit unit (GinkgoRecover unit unit (fun _ => "nil"%string))
    (@panic unit unit unit (VNil unit)) st
  = (Returned unit unit tt, set_panicking unit unit None st).
Proof.
  intros st.
  exact (deferred_GinkgoRecover_nil_panic unit unit (fun _ => "nil"%string)
           (@panic unit unit unit (VNil unit)) st st eq_refl).
Defined.

(** A goroutine that fails an assertion behind [defer GinkgoRecover()]. *)
Lemma deferred_GinkgoRecover_rescues_Fail_witness :
  let st := init unit unit {| NoColor := false; Verbose := false |} tt ∅ in
  defer unit unit (GinkgoRecover unit unit (fun _ => "panic"%string))
    (Fail unit unit "expected 1 to equal 2" [1]) st
  = (Returned unit unit tt,
     set_globalSuite unit unit
       [SuiteFail unit unit "expected 1 to equal 2" 1;
        SuiteFail unit unit
          (goroutine_panicked unit (fun _ => "panic"%string)
             (VString unit GINKGO_PANIC)) 1]
       st).
Proof.
  intros st.
  exact (deferred_GinkgoRecover_rescues_Fail unit unit (fun _ => "panic"%string)
           "expected 1 to equal 2" [1] st eq_refl).
Defined.

(** The suite is run, then a leaf is declared: the writer is still in the
    mode of Verbose. *)
Lemma writer_mode_is_kept_witness :
  let p := [do_RunSpecs unit {| T_Fail := fun w : unit => w |} "suite";
            do_declare unit (call_It unit "leaf" (VFunc unit (fun w => w)) [])] in
  let st := run unit unit Float64.amd64_unrepresentable (fun _ => "v"%string)
              (fun _ => true) p
              (init unit unit {| NoColor := false; Verbose := true |} tt ∅) in
  exists writer,
    GinkgoWriter unit unit st = Writer_internal writer
    /\ directToStdout writer = true.
Proof.
  intros p st.
  destruct (writer_mode_is_kept unit unit Float64.amd64_unrepresentable
              (fun _ => "v"%string) (fun _ => true)
              {| NoColor := false; Verbose := true |} tt ∅ p)
    as (writer & Hw & Hmode).
  exists writer. split; [exact Hw|]. apply Hmode. reflexivity.
Defined.


